(** * The mesh-building pipeline of [mpas_tools.mesh.creation.build_mesh]

    A shallow embedding of [build_mesh.py]: the module body (its imports),
    [build_mesh] and [main].  The file is glue code: every statement of
    interest is a call to a collaborator (the user's [define_base_mesh]
    module, xarray, matplotlib, JIGSAW, the MPAS converters and injectors).
    The orchestrator is therefore written as a program over an alphabet of
    calls, and run against an arbitrary environment that answers each call
    with a value or an exception and moves the world (working directory,
    interpreter state) along.  A run yields its result, the final world and
    the trace of the calls it made. *)

From Stdlib Require Import ZArith Ascii String Uint63 PrimFloat.
From stdpp Require Import base option list strings gmap.

Local Open Scope string_scope.

(** ** Values handed between the stages

    numpy arrays, xarray objects and polygon vertices are opaque to the
    orchestrator: it only passes them on. *)

Class Data := {
  ndarray : Type;      (* the 2D [cellWidth] field *)
  axis : Type;         (* a 1D coordinate array: [lon], [lat], [x], [y] *)
  point : Type;        (* a vertex of the bounding polygon *)
  edge : Type;         (* an edge between two vertices of [geom_points] *)
  data_array : Type;   (* an [xarray.DataArray] *)
  dataset : Type       (* an [xarray.Dataset] *)
}.

(** What [parser.parse_args()] returns for the parser built in [main]. *)
Record Namespace := {
  ns_preserve_floodplain : bool;
  ns_floodplain_elevation : float;
  ns_inject_bathymetry : bool;
  ns_geometry : string;
  ns_plot_cellWidth : bool
}.

(** One [parser.add_argument] of [main]. *)
Inductive action := store | store_true.
Inductive arg_type := type_float.
Inductive arg_default := default_str (s : string) | default_float (f : float).

Record argument := {
  arg_name : string;
  arg_action : action;
  arg_type_ : option arg_type;          (* [type=]; [None] when not given *)
  arg_default_ : option arg_default;    (* [default=]; [None] when not given *)
  arg_choices : option (list string);   (* [choices=]; [None] when not given *)
  arg_help : string
}.

(** What a Python call evaluates to when the claims speak of a returned
    location: [None] or a string. *)
Inductive py_value := PyNone | PyStr (s : string).

Section Orchestrator.
Context `{Data}.

(** ** The calls the module makes

    Constructors carry the arguments as the call site passes them; an
    optional keyword that the call site leaves out is [None]. *)
Inductive call :=
(* module body *)
| import_ (module : string)
| matplotlib_use (backend : string)
| getcwd
| sys_path_append (dir : string)
| del_sys_path_last
(* build_mesh *)
| print (msg : string)
| cellWidthVsLatLon
| cellWidthVsXY
| DataArray (cellWidth : ndarray) (dims : list string)
            (coords : list (string * axis)) (name : string)
| to_netcdf (da : data_array) (filename : string)
| register_sci_viz_colormaps
| draw_cellWidth_figure (cellWidth : ndarray)
| savefig (fname : string) (bbox_inches : string)
| plt_close
| jigsaw_driver (cellWidth : ndarray) (x y : axis) (on_sphere : option bool)
                (geom_points : option (list point))
                (geom_edges : option (list edge))
| jigsaw_to_netcdf (msh_filename output_name : string) (on_sphere : bool)
| open_dataset (filename : string)
| convert (ds : dataset)
| write_netcdf (ds : dataset) (filename : string)
| inject_meshDensity (cw_filename mesh_filename : string) (on_sphere : bool)
| inject_bathymetry (mesh_file : string)
| inject_preserve_floodplain (mesh_file : string) (floodplain_elevation : float)
| extract_vtk (ignore_time lonlat : bool) (dimension_list variable_list : list string)
              (filename_pattern out_dir : string)
(* main *)
| parse_args (parser : list argument).

(** The type of the value a call returns.  The two generator calls stand
    for the whole statements of lines 104 and 141, the call and the
    unpacking of its value into three, respectively five, names: a value
    that does not unpack makes the statement raise, and that is the call
    raising. *)
Definition ret (c : call) : Type :=
  match c with
  | getcwd => string
  | cellWidthVsLatLon => ndarray * axis * axis
  | cellWidthVsXY => ndarray * axis * axis * list point * list edge
  | DataArray _ _ _ _ => data_array
  | open_dataset _ => dataset
  | convert _ => dataset
  | parse_args _ => Namespace
  | _ => unit
  end.

(** ** Programs: a return, a call and its continuation, or the raise of
    Python's own when a local variable is read that was never assigned *)

Inductive prog (A : Type) : Type :=
| Ret (a : A)
| Unbound (name : string)                  (* raise UnboundLocalError *)
| Call (c : call) (k : ret c -> prog A).
Global Arguments Ret {A} a.
Global Arguments Unbound {A} name.
Global Arguments Call {A} c k.

Fixpoint bind {A B} (f : A -> prog B) (p : prog A) : prog B :=
  match p with
  | Ret a => f a
  | Unbound name => Unbound name
  | Call c k => Call c (fun r => bind f (k r))
  end.

Global Instance prog_ret : MRet prog := fun A a => Ret a.
Global Instance prog_bind : MBind prog := fun A B f p => bind f p.

Definition do (c : call) : prog (ret c) := Call c Ret.

(** Reading a local variable: bound, or [UnboundLocalError]. *)
Definition local {A} (name : string) (v : option A) : prog A :=
  match v with
  | Some a => Ret a
  | None => Unbound name
  end.

(** ** The module body (lines 11-40)

    Python runs these statements when the module is imported, before any
    function of the module can be called.  [sys.path] is interpreter state:
    appending to it and deleting its last item are calls on the world. *)
Definition module_body : prog unit :=
  do (import_ "__future__");;
  do (import_ "xarray");;
  do (import_ "argparse");;
  do (import_ "matplotlib");;
  do (matplotlib_use "Agg");;
  do (import_ "matplotlib.pyplot");;
  do (import_ "cartopy.crs");;
  do (import_ "cartopy");;
  do (import_ "mpas_tools.mesh.conversion");;
  do (import_ "mpas_tools.io");;
  do (import_ "mpas_tools.viz.paraview_extractor");;
  do (import_ "mpas_tools.mesh.creation.jigsaw_driver");;
  do (import_ "mpas_tools.mesh.creation.jigsaw_to_netcdf");;
  do (import_ "mpas_tools.mesh.creation.inject_bathymetry");;
  do (import_ "mpas_tools.mesh.creation.inject_meshDensity");;
  do (import_ "mpas_tools.mesh.creation.inject_preserve_floodplain");;
  do (import_ "mpas_tools.viz.colormaps");;
  do (import_ "sys");;
  do (import_ "os");;
  (* add the current working directory to the system path *)
  cwd ← do getcwd;
  do (sys_path_append cwd);;
  do (import_ "define_base_mesh");;
  (* okay, now we don't want to get anything else from CWD *)
  do del_sys_path_last.

(** ** [build_mesh] (lines 42-189)

    The locals that Step 1 leaves for the later steps.  [cellWidth] and
    [cw_filename] are assigned in both branches; the axes and the polygon
    only in one of them, so they are optional and read with [local]. *)
Record locals := {
  cellWidth_ : ndarray;
  cw_filename_ : string;
  lon_ : option axis;
  lat_ : option axis;
  x_ : option axis;
  y_ : option axis;
  geom_points_ : option (list point);
  geom_edges_ : option (list edge)
}.

(** Lines 114-136 build the figure through matplotlib and cartopy
    ([plt.figure] ... [plt.tight_layout]); none of them names a file.  They
    are the one call [draw_cellWidth_figure]; [plt.savefig] and [plt.close]
    are calls of their own. *)
Definition build_mesh (preserve_floodplain : bool) (floodplain_elevation : float)
    (do_inject_bathymetry : bool) (geometry : string) (plot_cellWidth : bool)
  : prog py_value :=
  let on_sphere := if String.eqb geometry "sphere" then true else false in
  do (print "Step 1. Build cellWidth array as function of horizontal coordinates");;
  vars ← (if on_sphere then
      '(cellWidth, lon, lat) ← do cellWidthVsLatLon;
      da ← do (DataArray cellWidth ["lat"; "lon"] [("lat", lat); ("lon", lon)]
                         "cellWidth");
      let cw_filename := "cellWidthVsLatLon.nc" in
      do (to_netcdf da cw_filename);;
      let plot_cellWidth := true in
      (if plot_cellWidth then
         do register_sci_viz_colormaps;;
         do (draw_cellWidth_figure cellWidth);;
         do (savefig "cellWidthGlobal.png" "tight");;
         do plt_close
       else mret tt);;
      mret {| cellWidth_ := cellWidth; cw_filename_ := cw_filename;
              lon_ := Some lon; lat_ := Some lat; x_ := None; y_ := None;
              geom_points_ := None; geom_edges_ := None |}
    else
      '(cellWidth, x, y, geom_points, geom_edges) ← do cellWidthVsXY;
      da ← do (DataArray cellWidth ["y"; "x"] [("y", y); ("x", x)] "cellWidth");
      let cw_filename := "cellWidthVsXY.nc" in
      do (to_netcdf da cw_filename);;
      mret {| cellWidth_ := cellWidth; cw_filename_ := cw_filename;
              lon_ := None; lat_ := None; x_ := Some x; y_ := Some y;
              geom_points_ := Some geom_points; geom_edges_ := Some geom_edges |});
  do (print "Step 2. Generate mesh with JIGSAW");;
  (if on_sphere then
     lon ← local "lon" (lon_ vars);
     lat ← local "lat" (lat_ vars);
     do (jigsaw_driver (cellWidth_ vars) lon lat None None None)
   else
     x ← local "x" (x_ vars);
     y ← local "y" (y_ vars);
     geom_points ← local "geom_points" (geom_points_ vars);
     geom_edges ← local "geom_edges" (geom_edges_ vars);
     do (jigsaw_driver (cellWidth_ vars) x y (Some false)
                       (Some geom_points) (Some geom_edges)));;
  do (print "Step 3. Convert triangles from jigsaw format to netcdf");;
  do (jigsaw_to_netcdf "mesh-MESH.msh" "mesh_triangles.nc" on_sphere);;
  do (print "Step 4. Convert from triangles to MPAS mesh");;
  triangles ← do (open_dataset "mesh_triangles.nc");
  mesh ← do (convert triangles);
  do (write_netcdf mesh "base_mesh.nc");;
  do (print "Step 5. Inject correct meshDensity variable into base mesh file");;
  do (inject_meshDensity (cw_filename_ vars) "base_mesh.nc" on_sphere);;
  (if do_inject_bathymetry then
     do (print "Step 6. Injecting bathymetry");;
     do (inject_bathymetry "base_mesh.nc")
   else mret tt);;
  (if preserve_floodplain then
     do (print "Step 7. Injecting flag to preserve floodplain");;
     do (inject_preserve_floodplain "base_mesh.nc" floodplain_elevation)
   else mret tt);;
  do (print "Step 8. Create vtk file for visualization");;
  do (extract_vtk true true ["maxEdges="] ["allOnCells"] "base_mesh.nc"
                  "base_mesh_vtk");;
  do (print "***********************************************");;
  do (print "**    The global mesh file is base_mesh.nc   **");;
  do (print "***********************************************");;
  (* no return statement: the call evaluates to None *)
  mret PyNone.

(** ** [main] (lines 192-213) *)
Definition parser : list argument := [
  {| arg_name := "--preserve_floodplain"; arg_action := store_true;
     arg_type_ := None; arg_default_ := None; arg_choices := None;
     arg_help := "Whether a flood plain (bathymetry above z = 0) should be preserved in the mesh" |};
  {| arg_name := "--floodplain_elevation"; arg_action := store;
     arg_type_ := Some type_float; arg_default_ := Some (default_float 20);
     arg_choices := None;
     arg_help := "The elevation in meters to which the flood plain is preserved, default is 20 m" |};
  {| arg_name := "--inject_bathymetry"; arg_action := store_true;
     arg_type_ := None; arg_default_ := None; arg_choices := None;
     arg_help := "Whether one of the default bathymetry datasets, earth_relief_15s.nc or topo.msh, should be added to the MPAS mesh" |};
  {| arg_name := "--geometry"; arg_action := store;
     arg_type_ := None; arg_default_ := Some (default_str "sphere");
     arg_choices := None;
     arg_help := "Whether the mesh is on a sphere or a plane, default is a sphere" |};
  {| arg_name := "--plot_cellWidth"; arg_action := store_true;
     arg_type_ := None; arg_default_ := None; arg_choices := None;
     arg_help := "Whether to produce a plot of cellWidth" |}
].

Definition main : prog py_value :=
  cl_args ← do (parse_args parser);
  build_mesh (ns_preserve_floodplain cl_args) (ns_floodplain_elevation cl_args)
             (ns_inject_bathymetry cl_args) (ns_geometry cl_args)
             (ns_plot_cellWidth cl_args);;
  mret PyNone.

(** A function of the module is reachable only through the loaded module:
    the module body runs first, then the function. *)
Definition loaded_then {A} (p : prog A) : prog A := module_body;; p.

(** ** Running a program against an environment *)

Variable exn : Type.     (* what a collaborator raises *)
Variable World : Type.   (* what the collaborators act on *)
Variable env : forall c : call, World -> (exn + ret c) * World.

(** An exception seen by the caller: one raised by a collaborator (the
    raise of a generator statement whose value does not unpack included,
    see [ret]), or Python's own for a local variable read unassigned. *)
Inductive exception :=
| Collaborator (e : exn)
| UnboundLocalError (name : string).

Inductive entry :=
| Done (c : call) (r : ret c)      (* the call returned [r] *)
| Failed (c : call) (e : exn).     (* the call raised [e] *)

Definition call_of (t : entry) : call :=
  match t with Done c _ => c | Failed c _ => c end.

Definition completed (t : entry) : bool :=
  match t with Done _ _ => true | Failed _ _ => false end.

Inductive result (A : Type) :=
| Returned (a : A)
| Raised (e : exception).
Global Arguments Returned {A} a.
Global Arguments Raised {A} e.

Record outcome (A : Type) := {
  res : result A;
  world : World;
  trace : list entry
}.
Global Arguments res {A} o.
Global Arguments world {A} o.
Global Arguments trace {A} o.

Fixpoint run {A} (p : prog A) (w : World) : outcome A :=
  match p with
  | Ret a => {| res := Returned a; world := w; trace := [] |}
  | Unbound name =>
      {| res := Raised (UnboundLocalError name); world := w; trace := [] |}
  | Call c k =>
      match env c w with
      | (inr r, w') =>
          let o := run (k r) w' in
          {| res := res o; world := world o; trace := Done c r :: trace o |}
      | (inl e, w') =>
          {| res := Raised (Collaborator e); world := w'; trace := [Failed c e] |}
      end
  end.

(** The world after the calls of a trace, made one after the other. *)
Fixpoint replay (w : World) (tr : list entry) : World :=
  match tr with
  | [] => w
  | t :: tr' => replay (snd (env (call_of t) w)) tr'
  end.

End Orchestrator.

Arguments call {_}.
Arguments ret {_} c.
Arguments prog {_} A.
Arguments Ret {_ _} a.
Arguments Unbound {_ _} name.
Arguments Call {_ _} c k.
Arguments bind {_ _ _} f p.
Arguments do {_} c.
Arguments local {_ _} name v.
Arguments module_body {_}.
Arguments build_mesh {_}.
Arguments main {_}.
Arguments loaded_then {_ _} p.
Arguments entry {_} exn.
Arguments Done {_ _} c r.
Arguments Failed {_ _} c e.
Arguments call_of {_ _} t.
Arguments completed {_ _} t.
Arguments exception exn : clear implicits.
Arguments Collaborator {_} e.
Arguments UnboundLocalError {_} name.
Arguments result exn A : clear implicits.
Arguments Returned {_ _} a.
Arguments Raised {_ _} e.
Arguments outcome {_} exn World A.
Arguments res {_ _ _ _} o.
Arguments world {_ _ _ _} o.
Arguments trace {_ _ _ _} o.
Arguments run {_ _ _} env {A} p w.
Arguments replay {_ _ _} env w tr.

(** * A reference environment

    Modelled from the spec: the collaborators themselves (the generator
    module, xarray, matplotlib, [jigsaw_driver], [jigsaw_to_netcdf],
    [convert], [write_netcdf], the three injectors, [extract_vtk] and
    argparse) are not part of [build_mesh.py].  This environment gives each
    of them the behaviour that the docstring of [build_mesh] and the spec's
    stage descriptions state: which named file a stage reads, which it
    writes, and when it raises.  It is used to run the orchestrator on
    concrete inputs; the general theorems below hold for every environment. *)
Module Reference.

Definition field := list (list float).
Definition coordinate := list float.

Record xr_array := {
  da_values : field;
  da_dims : list string;
  da_coords : list (string * coordinate);
  da_name : string
}.

(** A mesh data set: triangles or MPAS polygons, and the fields injected
    so far. *)
Record mesh := {
  mesh_is_mpas : bool;
  mesh_on_sphere : option bool;
  meshDensity : option xr_array;
  bottomDepthObserved : bool;
  cellSeedMask : option float
}.

Global Instance data : Data := {|
  ndarray := field;
  axis := coordinate;
  point := float * float;
  edge := nat * nat;
  data_array := xr_array;
  dataset := mesh
|}.

(** What [define_base_mesh.py] defines: each generator function, if any,
    with the value it returns. *)
Record generator := {
  gen_cellWidthVsLatLon : option (field * coordinate * coordinate);
  gen_cellWidthVsXY :
    option (field * coordinate * coordinate * list (float * float) * list (nat * nat))
}.

Inductive file :=
| PythonSource (g : generator)
| ArrayFile (da : xr_array)
| MeshFile (m : mesh)
| Picture
| JigsawFile
| Topography
| VtkDirectory.

Inductive error :=
| ModuleNotFoundError (name : string)
| AttributeError (name : string)
| ValueError (msg : string)
| FileNotFoundError (name : string)
| IndexError
| SystemExit (code : Z).

(** The working directory with its files, and the interpreter state. *)
Record state := {
  files : gmap string file;
  cwd : string;
  sys_path : list string;
  site_packages : list string;
  argv : list string;
  stdout : list string
}.

Definition with_files (f : gmap string file -> gmap string file) (w : state) : state :=
  {| files := f (files w); cwd := cwd w; sys_path := sys_path w;
     site_packages := site_packages w; argv := argv w; stdout := stdout w |}.

Definition with_sys_path (p : list string) (w : state) : state :=
  {| files := files w; cwd := cwd w; sys_path := p;
     site_packages := site_packages w; argv := argv w; stdout := stdout w |}.

Definition with_stdout (o : list string) (w : state) : state :=
  {| files := files w; cwd := cwd w; sys_path := sys_path w;
     site_packages := site_packages w; argv := argv w; stdout := o |}.

Definition mem (s : string) (l : list string) : bool :=
  existsb (String.eqb s) l.

(** A module is found in the installed packages, or as a source file of
    the working directory when that directory is on [sys.path]. *)
Definition importable (m : string) (w : state) : bool :=
  mem m (site_packages w) ||
  (mem (cwd w) (sys_path w) &&
   match files w !! (m ++ ".py") with Some (PythonSource _) => true | _ => false end).

Definition the_generator (w : state) : option generator :=
  match files w !! "define_base_mesh.py" with
  | Some (PythonSource g) => Some g
  | _ => None
  end.

(** [xarray.DataArray] refuses coordinates whose lengths differ from the
    shape of the values. *)
Definition shape_ok (values : field) (dims : list string)
    (coords : list (string * coordinate)) : bool :=
  match dims, coords with
  | [d1; d2], [(c1, a1); (c2, a2)] =>
      String.eqb d1 c1 && String.eqb d2 c2 &&
      Nat.eqb (length values) (length a1) &&
      forallb (fun row => Nat.eqb (length row) (length a2)) values
  | _, _ => false
  end.

Definition jigsaw_outputs : list string :=
  ["mesh.log"; "mesh-HFUN.msh"; "mesh.jig"; "mesh-MESH.msh"; "mesh.msh"].

Definition write_all (names : list string) (f : file) (m : gmap string file)
  : gmap string file :=
  foldr (fun n acc => <[n := f]> acc) m names.

(** ** A small argparse: [--name] switches and [--name value] options *)

Definition digit_of (a : ascii) : option Z :=
  let n := Z.of_nat (nat_of_ascii a) in
  if (48 <=? n)%Z && (n <=? 57)%Z then Some (n - 48)%Z else None.

(** Digits with at most one point: the digits read as one integer, and
    the number of digits after the point. *)
Fixpoint read_decimal (s : string) (acc : Z) (frac : option nat) : option (Z * nat) :=
  match s with
  | EmptyString => Some (acc, default 0 frac)
  | String a s' =>
      if Ascii.eqb a "."%char then
        match frac with
        | None => read_decimal s' acc (Some 0)
        | Some _ => None
        end
      else
        match digit_of a with
        | Some d => read_decimal s' (10 * acc + d)%Z (S <$> frac)
        | None => None
        end
  end.

Definition float_of_Z (z : Z) : float := PrimFloat.of_uint63 (Uint63.of_Z z).

Definition parse_float (s : string) : option float :=
  match s with
  | EmptyString => None
  | _ =>
      match read_decimal s 0 None with
      | Some (m, k) => Some (float_of_Z m / float_of_Z (10 ^ Z.of_nat k))%float
      | None => None
      end
  end.

Definition find_argument (name : string) (p : list argument) : option argument :=
  List.find (fun a => String.eqb (arg_name a) name) p.

Definition set_switch (name : string) (ns : Namespace) : Namespace :=
  if String.eqb name "--preserve_floodplain" then
    {| ns_preserve_floodplain := true;
       ns_floodplain_elevation := ns_floodplain_elevation ns;
       ns_inject_bathymetry := ns_inject_bathymetry ns;
       ns_geometry := ns_geometry ns; ns_plot_cellWidth := ns_plot_cellWidth ns |}
  else if String.eqb name "--inject_bathymetry" then
    {| ns_preserve_floodplain := ns_preserve_floodplain ns;
       ns_floodplain_elevation := ns_floodplain_elevation ns;
       ns_inject_bathymetry := true;
       ns_geometry := ns_geometry ns; ns_plot_cellWidth := ns_plot_cellWidth ns |}
  else if String.eqb name "--plot_cellWidth" then
    {| ns_preserve_floodplain := ns_preserve_floodplain ns;
       ns_floodplain_elevation := ns_floodplain_elevation ns;
       ns_inject_bathymetry := ns_inject_bathymetry ns;
       ns_geometry := ns_geometry ns; ns_plot_cellWidth := true |}
  else ns.

Definition set_option (a : argument) (value : string) (ns : Namespace)
  : option Namespace :=
  if negb (from_option (mem value) true (arg_choices a)) then None
  else
    match arg_type_ a with
    | Some type_float =>
        f ← parse_float value;
        if String.eqb (arg_name a) "--floodplain_elevation" then
          Some {| ns_preserve_floodplain := ns_preserve_floodplain ns;
                  ns_floodplain_elevation := f;
                  ns_inject_bathymetry := ns_inject_bathymetry ns;
                  ns_geometry := ns_geometry ns;
                  ns_plot_cellWidth := ns_plot_cellWidth ns |}
        else Some ns
    | None =>
        if String.eqb (arg_name a) "--geometry" then
          Some {| ns_preserve_floodplain := ns_preserve_floodplain ns;
                  ns_floodplain_elevation := ns_floodplain_elevation ns;
                  ns_inject_bathymetry := ns_inject_bathymetry ns;
                  ns_geometry := value;
                  ns_plot_cellWidth := ns_plot_cellWidth ns |}
        else Some ns
    end.

Fixpoint parse_tokens (p : list argument) (tokens : list string) (ns : Namespace)
  : option Namespace :=
  match tokens with
  | [] => Some ns
  | t :: rest =>
      match find_argument t p with
      | None => None
      | Some a =>
          match arg_action a with
          | store_true => parse_tokens p rest (set_switch t ns)
          | store =>
              match rest with
              | [] => None
              | v :: rest' =>
                  match set_option a v ns with
                  | Some ns' => parse_tokens p rest' ns'
                  | None => None
                  end
              end
          end
      end
  end.

Definition default_of (name : string) (p : list argument) : option arg_default :=
  a ← find_argument name p; arg_default_ a.

(** The name space before any token is read: a switch is false, an option
    has its declared default. *)
Definition defaults (p : list argument) : Namespace :=
  {| ns_preserve_floodplain := false;
     ns_floodplain_elevation :=
       match default_of "--floodplain_elevation" p with
       | Some (default_float f) => f
       | _ => 0%float
       end;
     ns_inject_bathymetry := false;
     ns_geometry :=
       match default_of "--geometry" p with
       | Some (default_str s) => s
       | _ => ""
       end;
     ns_plot_cellWidth := false |}.

(** ** What each call does to the working directory *)

Definition ok {A} (a : A) (w : state) : (error + A) * state := (inr a, w).
Definition raise {A} (e : error) (w : state) : (error + A) * state := (inl e, w).

Definition empty_mesh (on_sphere : bool) : mesh :=
  {| mesh_is_mpas := false; mesh_on_sphere := Some on_sphere;
     meshDensity := None; bottomDepthObserved := false; cellSeedMask := None |}.

Definition to_mpas (m : mesh) : mesh :=
  {| mesh_is_mpas := true; mesh_on_sphere := mesh_on_sphere m;
     meshDensity := meshDensity m; bottomDepthObserved := bottomDepthObserved m;
     cellSeedMask := cellSeedMask m |}.

Definition with_density (da : xr_array) (m : mesh) : mesh :=
  {| mesh_is_mpas := mesh_is_mpas m; mesh_on_sphere := mesh_on_sphere m;
     meshDensity := Some da; bottomDepthObserved := bottomDepthObserved m;
     cellSeedMask := cellSeedMask m |}.

Definition with_bathymetry (m : mesh) : mesh :=
  {| mesh_is_mpas := mesh_is_mpas m; mesh_on_sphere := mesh_on_sphere m;
     meshDensity := meshDensity m; bottomDepthObserved := true;
     cellSeedMask := cellSeedMask m |}.

Definition with_floodplain (elevation : float) (m : mesh) : mesh :=
  {| mesh_is_mpas := mesh_is_mpas m; mesh_on_sphere := mesh_on_sphere m;
     meshDensity := meshDensity m; bottomDepthObserved := bottomDepthObserved m;
     cellSeedMask := Some elevation |}.

Definition is_file (name : string) (w : state) : bool :=
  bool_decide (is_Some (files w !! name)).

Definition env (c : call) : state -> (error + ret c) * state :=
  match c return state -> (error + ret c) * state with
  | import_ m => fun w =>
      if importable m w then ok tt w else raise (ModuleNotFoundError m) w
  | matplotlib_use _ => ok tt
  | getcwd => fun w => ok (cwd w) w
  | sys_path_append dir => fun w => ok tt (with_sys_path (sys_path w ++ [dir]) w)
  | del_sys_path_last => fun w =>
      match sys_path w with
      | [] => raise IndexError w
      | _ => ok tt (with_sys_path (removelast (sys_path w)) w)
      end
  | print msg => fun w => ok tt (with_stdout (stdout w ++ [msg]) w)
  | cellWidthVsLatLon => fun w =>
      match the_generator w ≫= gen_cellWidthVsLatLon with
      | Some r => ok r w
      | None => raise (AttributeError "cellWidthVsLatLon") w
      end
  | cellWidthVsXY => fun w =>
      match the_generator w ≫= gen_cellWidthVsXY with
      | Some r => ok r w
      | None => raise (AttributeError "cellWidthVsXY") w
      end
  | DataArray values dims coords name => fun w =>
      if shape_ok values dims coords
      then ok {| da_values := values; da_dims := dims; da_coords := coords;
                 da_name := name |} w
      else raise (ValueError "conflicting sizes") w
  | to_netcdf da filename => fun w =>
      ok tt (with_files (insert filename (ArrayFile da)) w)
  | register_sci_viz_colormaps => ok tt
  | draw_cellWidth_figure _ => ok tt
  | savefig fname _ => fun w => ok tt (with_files (insert fname Picture) w)
  | plt_close => ok tt
  | jigsaw_driver _ _ _ on_sphere _ geom_edges => fun w =>
      (* a planar mesh needs a boundary: a non-empty list of edges *)
      match on_sphere, geom_edges with
      | Some false, None | Some false, Some [] =>
          raise (ValueError "no boundary edges") w
      | _, _ => ok tt (with_files (write_all jigsaw_outputs JigsawFile) w)
      end
  | jigsaw_to_netcdf msh_filename output_name on_sphere => fun w =>
      match files w !! msh_filename with
      | Some JigsawFile =>
          ok tt (with_files (insert output_name (MeshFile (empty_mesh on_sphere))) w)
      | _ => raise (FileNotFoundError msh_filename) w
      end
  | open_dataset filename => fun w =>
      match files w !! filename with
      | Some (MeshFile m) => ok m w
      | _ => raise (FileNotFoundError filename) w
      end
  | convert ds => ok (to_mpas ds)
  | write_netcdf ds filename => fun w =>
      ok tt (with_files (insert filename (MeshFile ds)) w)
  | inject_meshDensity cw_filename mesh_filename _ => fun w =>
      match files w !! cw_filename, files w !! mesh_filename with
      | Some (ArrayFile da), Some (MeshFile m) =>
          ok tt (with_files (insert mesh_filename (MeshFile (with_density da m))) w)
      | Some (ArrayFile _), _ => raise (FileNotFoundError mesh_filename) w
      | _, _ => raise (FileNotFoundError cw_filename) w
      end
  | inject_bathymetry mesh_file => fun w =>
      (* one of the default bathymetry data sets must be linked locally *)
      if is_file "earth_relief_15s.nc" w || is_file "topo.msh" w then
        match files w !! mesh_file with
        | Some (MeshFile m) =>
            ok tt (with_files (insert mesh_file (MeshFile (with_bathymetry m))) w)
        | _ => raise (FileNotFoundError mesh_file) w
        end
      else raise (FileNotFoundError "earth_relief_15s.nc") w
  | inject_preserve_floodplain mesh_file elevation => fun w =>
      match files w !! mesh_file with
      | Some (MeshFile m) =>
          ok tt (with_files (insert mesh_file (MeshFile (with_floodplain elevation m))) w)
      | _ => raise (FileNotFoundError mesh_file) w
      end
  | extract_vtk _ _ _ _ filename_pattern out_dir => fun w =>
      match files w !! filename_pattern with
      | Some (MeshFile _) => ok tt (with_files (insert out_dir VtkDirectory) w)
      | _ => raise (FileNotFoundError filename_pattern) w
      end
  | parse_args p => fun w =>
      match parse_tokens p (argv w) (defaults p) with
      | Some ns => ok ns w
      | None => raise (SystemExit 2) w
      end
  end.

(** ** Working directories to run in *)

Definition small_field : field := [[30; 30; 30]; [30; 60; 30]]%float.

Definition sphere_and_plane : generator :=
  {| gen_cellWidthVsLatLon := Some (small_field, [-180; 0; 180], [-90; 90])%float;
     gen_cellWidthVsXY :=
       Some (small_field, [0; 1000; 2000], [0; 1000],
             [(0, 0); (2000, 0); (2000, 1000); (0, 1000)],
             [(0, 1); (1, 2); (2, 3); (3, 0)]%nat)%float |}.

(** A planar generator whose bounding polygon has no edges. *)
Definition plane_without_edges : generator :=
  {| gen_cellWidthVsLatLon := None;
     gen_cellWidthVsXY :=
       Some (small_field, [0; 1000; 2000], [0; 1000],
             [(0, 0); (2000, 0); (2000, 1000); (0, 1000)], [])%float |}.

Definition installed : list string :=
  ["__future__"; "xarray"; "argparse"; "matplotlib"; "matplotlib.pyplot";
   "cartopy.crs"; "cartopy"; "mpas_tools.mesh.conversion"; "mpas_tools.io";
   "mpas_tools.viz.paraview_extractor"; "mpas_tools.mesh.creation.jigsaw_driver";
   "mpas_tools.mesh.creation.jigsaw_to_netcdf";
   "mpas_tools.mesh.creation.inject_bathymetry";
   "mpas_tools.mesh.creation.inject_meshDensity";
   "mpas_tools.mesh.creation.inject_preserve_floodplain";
   "mpas_tools.viz.colormaps"; "sys"; "os"].

Definition directory (fs : gmap string file) (args : list string) : state :=
  {| files := fs; cwd := "/work"; sys_path := ["/usr/bin"];
     site_packages := installed; argv := args; stdout := [] |}.

(** The generator module alone: no bathymetry data set is linked. *)
Definition fresh (args : list string) : state :=
  directory {["define_base_mesh.py" := PythonSource sphere_and_plane]} args.

(** The generator module and a link to [topo.msh]. *)
Definition with_topo (args : list string) : state :=
  directory (<["topo.msh" := Topography]>
             {["define_base_mesh.py" := PythonSource sphere_and_plane]}) args.

Definition edgeless (args : list string) : state :=
  directory {["define_base_mesh.py" := PythonSource plane_without_edges]} args.

(** No [define_base_mesh.py] in the working directory. *)
Definition no_generator (args : list string) : state := directory ∅ args.

End Reference.

(** * Reading a trace

    Classifiers of calls look at the function called and at the names it is
    given; they are boolean so that a trace can be checked by evaluation. *)
Section Traces.
Context `{Data} {exn : Type}.
Implicit Types (c : call) (t : entry exn) (tr : list (entry exn)).

Definition calls tr : list call := map call_of tr.

Definition prints (msg : string) c : bool :=
  match c with print m => String.eqb m msg | _ => false end.

(** The calls of the plotting block, lines 113-138. *)
Definition is_plot_call c : bool :=
  match c with
  | register_sci_viz_colormaps | draw_cellWidth_figure _ | savefig _ _ | plt_close => true
  | _ => false
  end.

Definition saves_figure (name : string) c : bool :=
  match c with savefig f _ => String.eqb f name | _ => false end.

Definition is_engine c : bool :=
  match c with jigsaw_driver _ _ _ _ _ _ => true | _ => false end.

Definition persists (name : string) c : bool :=
  match c with to_netcdf _ f => String.eqb f name | _ => false end.

Definition is_persist c : bool :=
  match c with to_netcdf _ _ => true | _ => false end.

Definition writes_mesh (name : string) c : bool :=
  match c with write_netcdf _ f => String.eqb f name | _ => false end.

Definition is_density_injection c : bool :=
  match c with inject_meshDensity _ _ _ => true | _ => false end.

Definition is_bathymetry_injection c : bool :=
  match c with inject_bathymetry _ => true | _ => false end.

Definition is_floodplain_injection c : bool :=
  match c with inject_preserve_floodplain _ _ => true | _ => false end.

Definition is_export c : bool :=
  match c with extract_vtk _ _ _ _ _ _ => true | _ => false end.

Definition is_parse_args c : bool :=
  match c with parse_args _ => true | _ => false end.

Definition imports (name : string) c : bool :=
  match c with import_ m => String.eqb m name | _ => false end.

Definition is_import c : bool :=
  match c with import_ _ => true | _ => false end.

(** The calls that only the module body makes. *)
Definition module_level c : bool :=
  match c with
  | import_ _ | matplotlib_use _ | getcwd | sys_path_append _ | del_sys_path_last => true
  | _ => false
  end.

(** The file or directory a call is told to write or to change in place. *)
Definition target c : option string :=
  match c with
  | to_netcdf _ f => Some f
  | savefig f _ => Some f
  | jigsaw_to_netcdf _ f _ => Some f
  | write_netcdf _ f => Some f
  | inject_meshDensity _ f _ => Some f
  | inject_bathymetry f => Some f
  | inject_preserve_floodplain f _ => Some f
  | extract_vtk _ _ _ _ _ d => Some d
  | _ => None
  end.

Definition targets (name : string) c : bool :=
  match target c with Some f => String.eqb f name | None => false end.

(** Some call of the trace satisfies [P]. *)
Definition invoked (P : call -> bool) tr : bool :=
  existsb (fun t => P (call_of t)) tr.

(** Some call of the trace satisfies [P] and returned. *)
Definition finished (P : call -> bool) tr : bool :=
  existsb (fun t => P (call_of t) && completed t) tr.

(** The run got as far as printing [msg]. *)
Definition reached (msg : string) tr : bool := invoked (prints msg) tr.

Definition count (P : call -> bool) tr : nat :=
  length (List.filter (fun t => P (call_of t)) tr).

(** Some call of the trace satisfies [P] and raised. *)
Definition failed_at (P : call -> bool) tr : bool :=
  existsb (fun t => P (call_of t) && negb (completed t)) tr.

(** Every call of the trace satisfies [P]. *)
Fixpoint every_call (P : call -> Prop) tr : Prop :=
  match tr with
  | [] => True
  | t :: tr' => P (call_of t) /\ every_call P tr'
  end.

Definition has_target c : bool :=
  match target c with Some _ => true | None => false end.

Definition is_path_append c : bool :=
  match c with sys_path_append _ => true | _ => false end.

(** The directory appended to [sys.path] is the one [os.getcwd()]
    returned in this trace. *)
Definition appends_cwd_of tr c : Prop :=
  match c with
  | sys_path_append dir => In (Done getcwd dir) tr
  | _ => True
  end.

Definition injects_density (name mesh_name : string) c : bool :=
  match c with
  | inject_meshDensity f m _ => String.eqb f name && String.eqb m mesh_name
  | _ => false
  end.

(** Every call satisfying [Q] comes after a call satisfying [P] that
    returned; [seen] says whether such a call lies before [tr]. *)
Fixpoint preceded_from (seen : bool) (P Q : call -> bool) tr : bool :=
  match tr with
  | [] => true
  | t :: tr' =>
      (if Q (call_of t) then seen else true) &&
      preceded_from (seen || (P (call_of t) && completed t)) P Q tr'
  end.

Definition preceded (P Q : call -> bool) tr : bool := preceded_from false P Q tr.

(** The name under which the density field is serialized: the value of
    [cw_filename] after Step 1. *)
Definition serialized_name (geometry : string) : string :=
  if String.eqb geometry "sphere" then "cellWidthVsLatLon.nc" else "cellWidthVsXY.nc".

(** A call that names the serialized density field names it [name]. *)
Definition density_file_is (name : string) c : bool :=
  match c with
  | to_netcdf _ f => String.eqb f name
  | inject_meshDensity f _ _ => String.eqb f name
  | _ => true
  end.

(** A density injection is the one of Step 5 for this mode. *)
Definition injection_is (name : string) (on_sphere : bool) c : Prop :=
  match c with
  | inject_meshDensity f m s => f = name /\ m = "base_mesh.nc" /\ s = on_sphere
  | _ => True
  end.

(** A floodplain injection is the one of Step 7 with this threshold. *)
Definition floodplain_is (elevation : float) c : Prop :=
  match c with
  | inject_preserve_floodplain m e => m = "base_mesh.nc" /\ e = elevation
  | _ => True
  end.

Definition bathymetry_is c : Prop :=
  match c with
  | inject_bathymetry m => m = "base_mesh.nc"
  | _ => True
  end.

(** An engine call of a planar run carries the polygon that the planar
    generator returned in this trace, and [on_sphere=False]. *)
Definition engine_takes_polygon_of tr c : Prop :=
  match c with
  | jigsaw_driver cw x y s gp ge =>
      exists points edges,
        s = Some false /\ gp = Some points /\ ge = Some edges /\
        In (Done cellWidthVsXY (cw, x, y, points, edges)) tr
  | _ => True
  end.

(** [post] holds of the trace and result of every run of [p], whatever
    the environment answers: at each call, for the exception it may raise
    and for the value it may return. *)
Fixpoint on_every_path {A} (p : prog A)
    (post : list (entry exn) -> result exn A -> Prop) : Prop :=
  match p with
  | Ret a => post [] (Returned a)
  | Unbound name => post [] (Raised (UnboundLocalError name))
  | Call c k =>
      (forall e, post [Failed c e] (Raised (Collaborator e))) /\
      (forall r, on_every_path (k r) (fun tr => post (Done c r :: tr)))
  end.

(** ** More readings of a trace *)

(** The messages printed, in order. *)
Definition announcements tr : list string :=
  omap (fun t => match call_of t with print m => Some m | _ => None end) tr.

(** The files and directories that the calls were told to write, in order. *)
Definition written tr : list string := omap (fun t => target (call_of t)) tr.

Definition is_generator c : bool :=
  match c with cellWidthVsLatLon | cellWidthVsXY => true | _ => false end.

Definition is_array_construction c : bool :=
  match c with DataArray _ _ _ _ => true | _ => false end.

Definition is_format_conversion c : bool :=
  match c with jigsaw_to_netcdf _ _ _ => true | _ => false end.

Definition is_open c : bool :=
  match c with open_dataset _ => true | _ => false end.

Definition is_topology_conversion c : bool :=
  match c with convert _ => true | _ => false end.

Definition is_mesh_write c : bool :=
  match c with write_netcdf _ _ => true | _ => false end.

Definition is_backend_choice c : bool :=
  match c with matplotlib_use _ => true | _ => false end.

Definition is_path_restore c : bool :=
  match c with del_sys_path_last => true | _ => false end.

Definition is_colormap_registration c : bool :=
  match c with register_sci_viz_colormaps => true | _ => false end.

Definition is_drawing c : bool :=
  match c with draw_cellWidth_figure _ => true | _ => false end.

Definition is_figure_save c : bool :=
  match c with savefig _ _ => true | _ => false end.

Definition is_figure_close c : bool :=
  match c with plt_close => true | _ => false end.

(** A figure is saved as line 137 saves it. *)
Definition figure_save_is c : bool :=
  match c with
  | savefig f b => String.eqb f "cellWidthGlobal.png" && String.eqb b "tight"
  | _ => true
  end.

(** A choice of plotting backend chooses ['Agg']. *)
Definition backend_is_agg c : bool :=
  match c with matplotlib_use b => String.eqb b "Agg" | _ => true end.

(** The functions that do the work of the pipeline, prints apart. *)
Definition stage_functions : list (call -> bool) :=
  [is_generator; is_array_construction; is_persist; is_engine;
   is_format_conversion; is_open; is_topology_conversion; is_mesh_write;
   is_density_injection; is_bathymetry_injection; is_floodplain_injection;
   is_export; saves_figure "cellWidthGlobal.png"].

(** A call that takes an [on_sphere] argument has the mode's: the engine
    is called without it on the sphere (its default) and with [False] on
    the plane; the converter and the density injection are given the flag. *)
Definition carries_mode (on_sphere : bool) c : bool :=
  match c with
  | jigsaw_driver _ _ _ s _ _ =>
      match s with
      | None => on_sphere
      | Some b => negb on_sphere && negb b
      end
  | jigsaw_to_netcdf _ _ s => Bool.eqb s on_sphere
  | inject_meshDensity _ _ s => Bool.eqb s on_sphere
  | _ => true
  end.

(** What the calls of a trace returned, by function. *)
Definition sphere_fields tr : list (ndarray * axis * axis) :=
  omap (fun t => match t with
                 | Done c r =>
                     match c return ret c -> option (ndarray * axis * axis) with
                     | cellWidthVsLatLon => Some
                     | _ => fun _ => None
                     end r
                 | Failed _ _ => None
                 end) tr.

Definition plane_fields tr : list (ndarray * axis * axis * list point * list edge) :=
  omap (fun t => match t with
                 | Done c r =>
                     match c return ret c -> option (ndarray * axis * axis *
                                                     list point * list edge) with
                     | cellWidthVsXY => Some
                     | _ => fun _ => None
                     end r
                 | Failed _ _ => None
                 end) tr.

(** The arrays built: what [DataArray] was given and what it returned. *)
Definition arrays_built tr
  : list (ndarray * list string * list (string * axis) * string * data_array) :=
  omap (fun t => match t with
                 | Done c r =>
                     match c return ret c -> option (ndarray * list string *
                                                     list (string * axis) *
                                                     string * data_array) with
                     | DataArray cw dims coords name =>
                         fun da => Some (cw, dims, coords, name, da)
                     | _ => fun _ => None
                     end r
                 | Failed _ _ => None
                 end) tr.

(** The files opened, each with the data set read from it. *)
Definition opened tr : list (string * dataset) :=
  omap (fun t => match t with
                 | Done c r =>
                     match c return ret c -> option (string * dataset) with
                     | open_dataset f => fun ds => Some (f, ds)
                     | _ => fun _ => None
                     end r
                 | Failed _ _ => None
                 end) tr.

(** The topology conversions: the data set given and the one returned. *)
Definition converted tr : list (dataset * dataset) :=
  omap (fun t => match t with
                 | Done c r =>
                     match c return ret c -> option (dataset * dataset) with
                     | convert ds => fun ds' => Some (ds, ds')
                     | _ => fun _ => None
                     end r
                 | Failed _ _ => None
                 end) tr.

(** Step 1 hands the generator's values on: the array is built from the
    field with the axes under the names of its dimensions, that array is
    the one written, and the figure is drawn from the same field. *)
Definition step1_data_flow (on_sphere : bool) tr c : Prop :=
  match c with
  | DataArray cw dims coords name =>
      name = "cellWidth" /\
      if on_sphere then
        exists lon lat,
          In (cw, lon, lat) (sphere_fields tr) /\
          dims = ["lat"; "lon"] /\ coords = [("lat", lat); ("lon", lon)]
      else
        exists x y points edges,
          In (cw, x, y, points, edges) (plane_fields tr) /\
          dims = ["y"; "x"] /\ coords = [("y", y); ("x", x)]
  | to_netcdf da _ =>
      exists cw dims coords, In (cw, dims, coords, "cellWidth", da) (arrays_built tr)
  | draw_cellWidth_figure cw =>
      exists lon lat, In (cw, lon, lat) (sphere_fields tr)
  | _ => True
  end.

(** The engine call of a sphere run: the generator's field, longitudes and
    latitudes, in this order, and no keyword argument. *)
Definition engine_takes_sphere_of tr c : Prop :=
  match c with
  | jigsaw_driver cw x y s gp ge =>
      s = None /\ gp = None /\ ge = None /\ In (cw, x, y) (sphere_fields tr)
  | _ => True
  end.

(** Steps 3 and 4 hand the mesh on through [mesh_triangles.nc]: the
    converter reads the engine's [mesh-MESH.msh] and writes that file, the
    same file is opened, what was opened is converted, and what the
    conversion returned is written to [base_mesh.nc]. *)
Definition conversion_chain tr c : Prop :=
  match c with
  | jigsaw_to_netcdf msh out _ => msh = "mesh-MESH.msh" /\ out = "mesh_triangles.nc"
  | open_dataset f => f = "mesh_triangles.nc"
  | convert ds => In ("mesh_triangles.nc", ds) (opened tr)
  | write_netcdf ds f =>
      f = "base_mesh.nc" /\ exists triangles, In (triangles, ds) (converted tr)
  | _ => True
  end.

(** The export call of line 183. *)
Definition export_is c : Prop :=
  match c with
  | extract_vtk ignore_time lonlat dimension_list variable_list pattern out_dir =>
      ignore_time = true /\ lonlat = true /\ dimension_list = ["maxEdges="] /\
      variable_list = ["allOnCells"] /\ pattern = "base_mesh.nc" /\
      out_dir = "base_mesh_vtk"
  | _ => True
  end.

(** The modules whose import is attempted after a call satisfying [P]
    returned; [seen] says whether such a call lies before [tr]. *)
Fixpoint imports_after (seen : bool) (P : call -> bool) tr : list string :=
  match tr with
  | [] => []
  | t :: tr' =>
      match call_of t with
      | import_ m => if seen then [m] else []
      | _ => []
      end ++ imports_after (seen || (P (call_of t) && completed t)) P tr'
  end.

(** Whether a result is the raise of [UnboundLocalError]. *)
Definition is_unbound_local_error {A} (r : result exn A) : bool :=
  match r with
  | Raised (UnboundLocalError _) => true
  | _ => false
  end.

(** The step of [build_mesh] that a call belongs to, a print by the step
    it announces: 1 to 8, 9 for the closing banner, 0 for the calls of the
    module body and of [main]. *)
Definition step_of c : nat :=
  match c with
  | print m =>
      if String.eqb m "Step 1. Build cellWidth array as function of horizontal coordinates" then 1
      else if String.eqb m "Step 2. Generate mesh with JIGSAW" then 2
      else if String.eqb m "Step 3. Convert triangles from jigsaw format to netcdf" then 3
      else if String.eqb m "Step 4. Convert from triangles to MPAS mesh" then 4
      else if String.eqb m "Step 5. Inject correct meshDensity variable into base mesh file" then 5
      else if String.eqb m "Step 6. Injecting bathymetry" then 6
      else if String.eqb m "Step 7. Injecting flag to preserve floodplain" then 7
      else if String.eqb m "Step 8. Create vtk file for visualization" then 8
      else 9
  | cellWidthVsLatLon | cellWidthVsXY | DataArray _ _ _ _ | to_netcdf _ _
  | register_sci_viz_colormaps | draw_cellWidth_figure _ | savefig _ _
  | plt_close => 1
  | jigsaw_driver _ _ _ _ _ _ => 2
  | jigsaw_to_netcdf _ _ _ => 3
  | open_dataset _ | convert _ | write_netcdf _ _ => 4
  | inject_meshDensity _ _ _ => 5
  | inject_bathymetry _ => 6
  | inject_preserve_floodplain _ _ => 7
  | extract_vtk _ _ _ _ _ _ => 8
  | import_ _ | matplotlib_use _ | getcwd | sys_path_append _
  | del_sys_path_last | parse_args _ => 0
  end.

(** The environment answered no call of Steps 1 to [n] with an exception. *)
Definition no_raise_through (n : nat) tr : bool :=
  negb (failed_at (fun c => Nat.leb 1 (step_of c) && Nat.leb (step_of c) n) tr).

(** The steps as they are announced in a run with these flags. *)
Definition steps (do_inject_bathymetry preserve_floodplain : bool) : list string :=
  ["Step 1. Build cellWidth array as function of horizontal coordinates";
   "Step 2. Generate mesh with JIGSAW";
   "Step 3. Convert triangles from jigsaw format to netcdf";
   "Step 4. Convert from triangles to MPAS mesh";
   "Step 5. Inject correct meshDensity variable into base mesh file"] ++
  (if do_inject_bathymetry then ["Step 6. Injecting bathymetry"] else []) ++
  (if preserve_floodplain then ["Step 7. Injecting flag to preserve floodplain"] else []) ++
  ["Step 8. Create vtk file for visualization";
   "***********************************************";
   "**    The global mesh file is base_mesh.nc   **";
   "***********************************************"].

(** The names a run with these options is told to write, in order. *)
Definition outputs (do_inject_bathymetry preserve_floodplain : bool)
    (geometry : string) : list string :=
  (if String.eqb geometry "sphere"
   then ["cellWidthVsLatLon.nc"; "cellWidthGlobal.png"]
   else ["cellWidthVsXY.nc"]) ++
  ["mesh_triangles.nc"; "base_mesh.nc"; "base_mesh.nc"] ++
  (if do_inject_bathymetry then ["base_mesh.nc"] else []) ++
  (if preserve_floodplain then ["base_mesh.nc"] else []) ++
  ["base_mesh_vtk"].

End Traces.

(** * Runs in the reference environment *)
Module Runs.
Import Reference.

(** The defaults of [build_mesh], in a directory with the generator only. *)
Definition sphere_run :=
  run env (build_mesh false 20 false "sphere" true) (fresh []).

(** The same, asking for no plot. *)
Definition sphere_run_no_plot :=
  run env (build_mesh false 20 false "sphere" false) (fresh []).

(** A planar run with both optional stages, [topo.msh] being linked. *)
Definition plane_run :=
  run env (build_mesh true 10 true "plane" true) (with_topo []).

(** Bathymetry asked for, no bathymetry data set linked. *)
Definition bathymetry_run :=
  run env (build_mesh false 20 true "sphere" true) (fresh []).

(** A planar run whose generator returns a polygon without edges. *)
Definition edgeless_run :=
  run env (build_mesh false 20 false "plane" true) (edgeless []).

(** The command line [--geometry cube]. *)
Definition cube_run :=
  run env (loaded_then main) (fresh ["--geometry"; "cube"]).

(** The command line in a directory without [define_base_mesh.py]. *)
Definition missing_module_run :=
  run env (loaded_then main) (no_generator ["--geometry"; "plane"]).

(** The module body alone, with and without [define_base_mesh.py]. *)
Definition load_run := run env module_body (fresh []).
Definition failed_load_run := run env module_body (no_generator []).

(** The reference environment on a machine where the export fails. *)
Definition env_without_export (c : call) : state -> (error + ret c) * state :=
  match c as c' return state -> (error + ret c') * state with
  | extract_vtk _ _ _ _ _ out_dir => raise (ValueError out_dir)
  | c' => env c'
  end.

Definition export_failure_run :=
  run env_without_export (build_mesh false 20 false "sphere" true) (fresh []).

End Runs.

(** * Properties of the runs *)
Section Properties.
Context `{Data} {exn World : Type}.
Variable env : forall c : call, World -> (exn + ret c) * World.
Implicit Types (w : World) (t : entry exn) (tr : list (entry exn)).
Local Open Scope list_scope.

(** ** Runs in general *)

Lemma run_call {A} (c : call) (k : ret c -> prog A) w :
  run env (Call c k) w =
  match env c w with
  | (inr r, w') =>
      let o := run env (k r) w' in
      {| res := res o; world := world o; trace := Done c r :: trace o |}
  | (inl e, w') =>
      {| res := Raised (Collaborator e); world := w'; trace := [Failed c e] |}
  end.
Proof. reflexivity. Qed.

(** A run of [p] followed by [f] is the run of [p], then, if [p]
    returned, the run of [f] from the world [p] left. *)
Lemma run_bind {A B} (p : prog A) (f : A -> prog B) w :
  run env (p ≫= f) w =
  match res (run env p w) with
  | Returned a =>
      let o := run env (f a) (world (run env p w)) in
      {| res := res o; world := world o;
         trace := trace (run env p w) ++ trace o |}
  | Raised e =>
      {| res := Raised e; world := world (run env p w);
         trace := trace (run env p w) |}
  end.
Proof.
  revert w. induction p as [a|e|c k IH]; intros w.
  - cbn. by destruct (run env (f a) w).
  - reflexivity.
  - change (Call c k ≫= f) with (Call c (fun r => k r ≫= f)).
    rewrite !run_call. destruct (env c w) as [[e|r] w']; [reflexivity|].
    cbn zeta. rewrite IH. by destruct (res (run env (k r) w')).
Qed.

(** The orchestrator changes the world only through its calls. *)
Lemma world_is_replay {A} (p : prog A) w :
  world (run env p w) = replay env w (trace (run env p w)).
Proof.
  revert w. induction p as [a|e|c k IH]; intros w; [reflexivity..|].
  rewrite run_call. cbn [replay].
  destruct (env c w) as [[e|r] w'] eqn:E; cbn; rewrite E; cbn; [reflexivity|apply IH].
Qed.

(** A run that returns made only calls that returned. *)
Lemma returned_all_completed {A} (p : prog A) w a :
  res (run env p w) = Returned a ->
  forallb completed (trace (run env p w)) = true.
Proof.
  revert w. induction p as [b|e|c k IH]; intros w; [done..|].
  rewrite run_call. destruct (env c w) as [[e|r] w']; [done|]. cbn. apply IH.
Qed.

(** A run that ends in a collaborator's exception ends at the call that
    raised it: every call before it returned, it is the last call, and the
    exception is the one the environment answered there. *)
Lemma raised_at_last_call {A} (p : prog A) w e :
  res (run env p w) = Raised (Collaborator e) ->
  exists pre c,
    trace (run env p w) = pre ++ [Failed c e] /\
    forallb completed pre = true /\
    fst (env c (replay env w pre)) = inl e.
Proof.
  revert w. induction p as [b|x|c k IH]; intros w; [done..|].
  rewrite run_call. destruct (env c w) as [[e'|r] w'] eqn:E; cbn.
  - intros [= ->]. exists [], c. cbn. by rewrite E.
  - intros Hr. destruct (IH r w' Hr) as (pre & c' & -> & Hpre & Hc').
    exists (Done c r :: pre), c'. cbn. by rewrite E.
Qed.

(** What holds on every path holds of every run. *)
Lemma run_on_every_path {A} (p : prog A) post w :
  on_every_path p post ->
  post (trace (run env p w)) (res (run env p w)).
Proof.
  revert post w. induction p as [a|x|c k IH]; intros post w; [done..|].
  intros [Hfail Hdone]. rewrite run_call.
  destruct (env c w) as [[e|r] w']; [apply Hfail|]. cbn. by apply IH.
Qed.

(** ** Runs of [build_mesh]

    [build_mesh] is a straight line of calls with three tests; a property
    of all its runs is settled by following the line, one answer of the
    environment after the other. *)

Ltac by_paths :=
  match goal with
  | |- context [run ?e ?p ?w] =>
      let o := fresh "o" in
      set (o := run e p w);
      pattern (trace o), (res o);
      match goal with
      | |- ?post _ _ => subst o; refine (run_on_every_path p post w _)
      end
  end.

Ltac walk :=
  vm_compute;
  repeat match goal with
  | |- _ /\ _ => split
  | |- forall _, _ => intro
  | r : (_ * _ * _ * _ * _)%type |- _ => destruct r as [[[[? ?] ?] ?] ?]; vm_compute
  | r : (_ * _ * _)%type |- _ => destruct r as [[? ?] ?]; vm_compute
  end.

Ltac found := repeat first [left; reflexivity | right].

Ltac settle :=
  first [ reflexivity | discriminate | exact I | congruence
        | solve [eexists; reflexivity]
        | solve [found]
        | solve [repeat eexists; found]
        | solve [repeat split; try reflexivity; repeat eexists; found] ].

(** The test of line 97, decided. *)
Ltac on_geometry g :=
  unfold build_mesh, serialized_name;
  destruct (String.eqb_spec g "sphere") as [->|?].

Ltac on_flags pf ib := destruct pf, ib.

(** [preceded] says what its name says: a call satisfying [Q] has a call
    satisfying [P] that returned somewhere before it. *)
Lemma preceded_from_spec (P Q : call -> bool) tr seen pre t post :
  preceded_from seen P Q tr = true ->
  tr = pre ++ t :: post ->
  Q (call_of t) = true ->
  seen = true \/ finished P pre = true.
Proof.
  revert seen pre. induction tr as [|t' tr IH]; intros seen pre Hp Heq HQ.
  - by destruct pre.
  - cbn in Hp. apply andb_prop in Hp as [Hhere Hrest].
    destruct pre as [|t'' pre]; cbn in Heq; injection Heq as -> ->.
    + rewrite HQ in Hhere. by left.
    + destruct (IH _ _ Hrest eq_refl HQ) as [Hseen|Hfin].
      * apply orb_prop in Hseen as [->|Hnow]; [by left|].
        right. unfold finished. cbn. by rewrite Hnow.
      * right. unfold finished in *. cbn. rewrite Hfin. apply orb_true_r.
Qed.

Lemma preceded_spec (P Q : call -> bool) tr pre t post :
  preceded P Q tr = true ->
  tr = pre ++ t :: post ->
  Q (call_of t) = true ->
  finished P pre = true.
Proof.
  intros Hp Heq HQ.
  by destruct (preceded_from_spec P Q tr false pre t post Hp Heq HQ).
Qed.

(** [build_mesh] never reads a local variable that its Step 1 left
    unassigned. *)
Lemma no_unbound_local w pf fe ib g pc name :
  res (run env (build_mesh pf fe ib g pc) w) <> Raised (UnboundLocalError name).
Proof.
  by_paths. on_geometry g; on_flags pf ib; walk; discriminate.
Qed.

(** C1: the plot of the cell widths is produced exactly in sphere mode,
    whatever [plot_cellWidth] says.  No call of the plotting block is made
    unless [geometry] is ['sphere']; a run in which the environment raised in
    no call of Step 1, and so every run that returns, has saved
    [cellWidthGlobal.png] if and only if [geometry] is ['sphere']; and the
    run is the same for every value of [plot_cellWidth]. *)
Theorem plot_iff_sphere w pf fe ib g pc pc' :
  let o := run env (build_mesh pf fe ib g pc) w in
  (invoked is_plot_call (trace o) = true -> g = "sphere") /\
  (no_raise_through 1 (trace o) = true ->
   (finished (saves_figure "cellWidthGlobal.png") (trace o) = true <-> g = "sphere")) /\
  (forall v, res o = Returned v ->
   (finished (saves_figure "cellWidthGlobal.png") (trace o) = true <-> g = "sphere")) /\
  o = run env (build_mesh pf fe ib g pc') w.
Proof.
  cbv zeta. split; [|split; [|split]].
  - by_paths. on_geometry g; on_flags pf ib; walk; done.
  - by_paths. on_geometry g; on_flags pf ib; walk; done.
  - by_paths. on_geometry g; on_flags pf ib; walk; done.
  - reflexivity.
Qed.

(** C4: in every run, sphere or plane, whenever the mesh-generation
    engine is called the density field has been written to its file by a
    call that returned, and whenever the density injection is called the
    final mesh [base_mesh.nc] has been written by a call that returned. *)
Theorem stage_order w pf fe ib g pc :
  let tr := trace (run env (build_mesh pf fe ib g pc) w) in
  preceded (persists (serialized_name g)) is_engine tr = true /\
  preceded (writes_mesh "base_mesh.nc") is_density_injection tr = true.
Proof.
  cbv zeta. by_paths. on_geometry g; on_flags pf ib; walk; reflexivity.
Qed.

(** C5: the density field is written under a name fixed by the mode,
    [cellWidthVsLatLon.nc] on the sphere and [cellWidthVsXY.nc] otherwise,
    and the density injection is given that same name.  Every [to_netcdf]
    and every [inject_meshDensity] of a run names this file; the injection
    comes after the write returned; no other call of the run is told to
    write that file.  A run in which the environment raised in no call of
    Step 1 has written the file, one in which it raised in no call of Steps
    1 to 5 has injected it into [base_mesh.nc], and so a run that returns
    has done both. *)
Theorem density_file_by_mode w pf fe ib g pc :
  let o := run env (build_mesh pf fe ib g pc) w in
  let tr := trace o in
  let name := serialized_name g in
  (name = if String.eqb g "sphere" then "cellWidthVsLatLon.nc" else "cellWidthVsXY.nc") /\
  "cellWidthVsLatLon.nc" <> "cellWidthVsXY.nc" /\
  forallb (fun t => density_file_is name (call_of t)) tr = true /\
  every_call (injection_is name (String.eqb g "sphere")) tr /\
  preceded (persists name) is_density_injection tr = true /\
  count (targets name) tr <= 1 /\
  (no_raise_through 1 tr = true -> finished (persists name) tr = true) /\
  (no_raise_through 5 tr = true ->
   finished (injects_density name "base_mesh.nc") tr = true) /\
  (forall v, res o = Returned v ->
   finished (persists name) tr = true /\
   finished (injects_density name "base_mesh.nc") tr = true).
Proof.
  cbv zeta. split; [reflexivity|]. split; [discriminate|].
  by_paths. on_geometry g; on_flags pf ib; walk; first [done | lia].
Qed.

(** C6: the bathymetry injection is called only if [do_inject_bathymetry]
    is true and the floodplain injection only if [preserve_floodplain] is
    true; each is called on [base_mesh.nc], the floodplain injection with
    [floodplain_elevation] as its threshold.  With its flag true, each is
    called in every run in which the environment raised in no call of the
    steps before it nor in the announcement of its own step; and in a run
    that returns each was called exactly when its flag is true. *)
Theorem optional_stages w pf fe ib g pc :
  let o := run env (build_mesh pf fe ib g pc) w in
  let tr := trace o in
  (invoked is_bathymetry_injection tr = true -> ib = true) /\
  (invoked is_floodplain_injection tr = true -> pf = true) /\
  every_call bathymetry_is tr /\
  every_call (floodplain_is fe) tr /\
  (ib = true ->
   no_raise_through 5 tr = true ->
   failed_at (prints "Step 6. Injecting bathymetry") tr = false ->
   invoked is_bathymetry_injection tr = true) /\
  (pf = true ->
   no_raise_through 6 tr = true ->
   failed_at (prints "Step 7. Injecting flag to preserve floodplain") tr = false ->
   invoked is_floodplain_injection tr = true) /\
  (forall v, res o = Returned v ->
   invoked is_bathymetry_injection tr = ib /\
   invoked is_floodplain_injection tr = pf /\
   (pf = true ->
    In (inject_preserve_floodplain "base_mesh.nc" fe) (calls tr))).
Proof.
  cbv zeta. by_paths. on_geometry g; on_flags pf ib; walk;
    first [reflexivity | discriminate | exact I
          | repeat first [left; reflexivity | right]].
Qed.

(** C3, as the code has it: [build_mesh] has no return statement.  A run
    that returns returns [None]; the location of the final mesh is the fixed
    name [base_mesh.nc], under which Step 4 has written it and which the
    closing banner has printed. *)
Theorem returns_none w pf fe ib g pc v :
  let o := run env (build_mesh pf fe ib g pc) w in
  res o = Returned v ->
  v = PyNone /\
  finished (writes_mesh "base_mesh.nc") (trace o) = true /\
  finished (prints "**    The global mesh file is base_mesh.nc   **") (trace o) = true.
Proof.
  cbv zeta. by_paths. on_geometry g; on_flags pf ib; walk; congruence.
Qed.

(** C8, as the code has it: in a run whose geometry is not ['sphere'],
    every call of the engine carries [on_sphere=False] and the points and
    edges that [cellWidthVsXY] returned, unchanged.  The orchestrator does
    not look at them: whatever polygon the generator returned, an empty edge
    list included, the engine is called with it in every run in which the
    environment raised in no call of Step 1 nor in the announcement of
    Step 2, and so in every run that returns. *)
Theorem polygon_handed_to_engine w pf fe ib g pc :
  g <> "sphere" ->
  let o := run env (build_mesh pf fe ib g pc) w in
  let tr := trace o in
  every_call (engine_takes_polygon_of tr) tr /\
  (no_raise_through 1 tr = true ->
   failed_at (prints "Step 2. Generate mesh with JIGSAW") tr = false ->
   invoked is_engine tr = true /\
   forall cw x y points edges,
     In (cw, x, y, points, edges) (plane_fields tr) ->
     In (jigsaw_driver cw x y (Some false) (Some points) (Some edges)) (calls tr)) /\
  (forall v, res o = Returned v -> invoked is_engine tr = true).
Proof.
  intros Hg. cbv zeta. by_paths. on_geometry g; [done|].
  on_flags pf ib; walk; try done.
  all: try (do 2 eexists; repeat split; auto 10; fail).
  all: match goal with
       | Hin : _ = _ \/ False |- _ => destruct Hin as [Hin|[]]; injection Hin as <- <- <- <- <-
       end; found.
Qed.

(** C9: with [preserve_floodplain] false, the value of
    [floodplain_elevation] does not reach any call: two runs that differ
    only in it make the same calls with the same arguments, end in the same
    world and give the same result. *)
Theorem floodplain_elevation_unused w (e1 e2 : float) ib g pc :
  run env (build_mesh false e1 ib g pc) w = run env (build_mesh false e2 ib g pc) w.
Proof. reflexivity. Qed.

(** C2, as the code has it: line 97 tests [geometry == 'sphere'] and
    nothing else, so every other value, ['plane'] or not, runs the planar
    pipeline; the parser of [main] declares no [choices] for any option and
    [main] hands the parsed value to [build_mesh] as it is. *)
Theorem other_geometry_is_plane w pf fe ib g pc :
  g <> "sphere" ->
  run env (build_mesh pf fe ib g pc) w = run env (build_mesh pf fe ib "plane" pc) w /\
  Forall (fun a => arg_choices a = None) parser /\
  (forall ns w',
     env (parse_args parser) w = (inr ns, w') ->
     trace (run env main w) =
     Done (parse_args parser) ns ::
     trace (run env (build_mesh (ns_preserve_floodplain ns) (ns_floodplain_elevation ns)
                                (ns_inject_bathymetry ns) (ns_geometry ns)
                                (ns_plot_cellWidth ns)) w')).
Proof.
  intros Hg. split; [|split].
  - unfold build_mesh. by destruct (String.eqb_spec g "sphere").
  - unfold parser. by repeat constructor.
  - intros ns w' E. unfold main.
    rewrite (run_bind (A:=Namespace) (do (parse_args parser))).
    unfold do. rewrite run_call, E. cbn [run res world trace app]. f_equal.
    rewrite run_bind. destruct (res (run env _ w')); cbn; [apply app_nil_r|done].
Qed.

Lemma finished_before_failure (P : call -> bool) pre c (e : exn) :
  finished P (pre ++ [Failed c e]) = finished P pre.
Proof.
  unfold finished. rewrite existsb_app. cbn.
  by rewrite andb_false_r, !orb_false_r.
Qed.

(** A run in which the bathymetry injection raised has, by then, written
    [base_mesh.nc] and injected the density into it, and calls neither the
    floodplain injection nor the export. *)
Lemma bathymetry_failure_is_late w pf fe ib g pc :
  let tr := trace (run env (build_mesh pf fe ib g pc) w) in
  failed_at is_bathymetry_injection tr = true ->
  finished (writes_mesh "base_mesh.nc") tr = true /\
  finished (injects_density (serialized_name g) "base_mesh.nc") tr = true /\
  invoked is_floodplain_injection tr = false /\
  invoked is_export tr = false.
Proof.
  cbv zeta. by_paths. on_geometry g; on_flags pf ib; walk; done.
Qed.


(** ** The module body and what runs after it *)

Lemma invoked_app (P : call -> bool) tr1 tr2 :
  invoked P (tr1 ++ tr2) = invoked P tr1 || invoked P tr2.
Proof. apply existsb_app. Qed.

Lemma finished_app (P : call -> bool) tr1 tr2 :
  finished P (tr1 ++ tr2) = finished P tr1 || finished P tr2.
Proof. apply existsb_app. Qed.

(** In a trace of module-level calls no call of another kind occurs. *)
Lemma only_module_level (Q : call -> bool) tr :
  (forall c, module_level c = true -> Q c = false) ->
  forallb (fun t => module_level (call_of t)) tr = true ->
  invoked Q tr = false.
Proof.
  intros Hdisj. unfold invoked. induction tr as [|t tr IH]; [done|]. cbn.
  intros [Ht Htr]%andb_prop. by rewrite (Hdisj _ Ht), IH.
Qed.

(** The module body makes module-level calls only; it can fail only by a
    collaborator's exception; when it returns, [define_base_mesh] has been
    imported.  That import comes after the working directory, as
    [os.getcwd()] returned it, was appended to [sys.path]. *)
Lemma module_body_runs w :
  let o := run env module_body w in
  forallb (fun t => module_level (call_of t)) (trace o) = true /\
  (forall x, res o = Raised x -> exists e, x = Collaborator e) /\
  (forall u, res o = Returned u ->
             finished (imports "define_base_mesh") (trace o) = true) /\
  preceded is_path_append (imports "define_base_mesh") (trace o) = true /\
  every_call (appends_cwd_of (trace o)) (trace o).
Proof.
  cbv zeta. by_paths. unfold module_body. walk; try done.
  all: try (simplify_eq; by eexists).
  all: repeat first [left; reflexivity | right].
Qed.

(** C10: [define_base_mesh] is imported by the module body, after the
    directory that [os.getcwd()] returned was appended to [sys.path], and
    not by [main] or [build_mesh].  Whatever function [p] of the module is
    to run once the module is loaded: if the import of [define_base_mesh]
    does not complete, the run ends in the exception of a module-level call,
    it has made module-level calls only, so the command line is not parsed,
    Step 1 is not reached and no call that writes a file is made.
    [build_mesh] itself makes no module-level call. *)
Theorem generator_imported_at_load {A} (p : prog A) w pf fe ib g pc :
  let o := run env (loaded_then p) w in
  let load := trace (run env module_body w) in
  invoked module_level (trace (run env (build_mesh pf fe ib g pc) w)) = false /\
  preceded is_path_append (imports "define_base_mesh") load = true /\
  every_call (appends_cwd_of load) load /\
  (finished (imports "define_base_mesh") (trace o) = false ->
   (exists e, res o = Raised (Collaborator e)) /\
   forallb (fun t => module_level (call_of t)) (trace o) = true /\
   invoked is_parse_args (trace o) = false /\
   reached "Step 1. Build cellWidth array as function of horizontal coordinates"
           (trace o) = false /\
   invoked has_target (trace o) = false).
Proof.
  cbv zeta. split; [|split; [|split]].
  - by_paths. on_geometry g; on_flags pf ib; walk; done.
  - apply module_body_runs.
  - apply module_body_runs.
  - destruct (module_body_runs w) as (Hall & Hraise & Hret & _).
    unfold loaded_then. rewrite run_bind.
    destruct (res (run env module_body w)) as [u|x] eqn:E; cbn [res world trace].
    + rewrite finished_app, (Hret u eq_refl). done.
    + intros _. destruct (Hraise x eq_refl) as [e ->].
      split; [by exists e|]. split; [done|].
      repeat split; (apply only_module_level; [by intros []|done]).
Qed.

(** ** Further properties of [build_mesh] *)

(** X1: [build_mesh] never raises [UnboundLocalError]: the locals that
    Step 2 reads ([lon], [lat], or [x], [y], [geom_points], [geom_edges])
    are those that the branch of Step 1 taken under the same test has
    assigned, whatever the geometry is. *)
Theorem locals_always_bound w pf fe ib g pc :
  is_unbound_local_error (res (run env (build_mesh pf fe ib g pc) w)) = false.
Proof.
  by_paths. on_geometry g; on_flags pf ib; walk; reflexivity.
Qed.

Lemma steps_checked w pf fe ib g pc :
  let o := run env (build_mesh pf fe ib g pc) w in
  bool_decide (announcements (trace o) `prefix_of` steps ib pf) &&
  match res o with
  | Returned _ => bool_decide (announcements (trace o) = steps ib pf)
  | Raised _ => true
  end = true.
Proof.
  cbv zeta. by_paths. on_geometry g; on_flags pf ib; walk; reflexivity.
Qed.

(** X2: the steps are announced in their order: what a run has printed is
    always an initial part of the list of steps for its flags, Step 6 and
    Step 7 being in the list exactly when their flag is set, and a run that
    returns has printed the whole list, the closing banner included. *)
Theorem steps_in_order w pf fe ib g pc :
  let o := run env (build_mesh pf fe ib g pc) w in
  announcements (trace o) `prefix_of` steps ib pf /\
  (forall v, res o = Returned v -> announcements (trace o) = steps ib pf).
Proof.
  cbv zeta. pose proof (steps_checked w pf fe ib g pc) as Hc. cbv zeta in Hc.
  apply andb_prop in Hc as [Hpre Hall]. split.
  - by apply bool_decide_eq_true in Hpre.
  - intros v Hv. rewrite Hv in Hall. by apply bool_decide_eq_true in Hall.
Qed.

(** X3: nothing is retried: in every run each stage function is called at
    most once, and in a run that returns each is called exactly once, the
    optional injections and the plot according to the flags and the mode. *)
Theorem no_stage_repeated w pf fe ib g pc :
  let o := run env (build_mesh pf fe ib g pc) w in
  forallb (fun P => Nat.leb (count P (trace o)) 1) stage_functions = true /\
  (forall v, res o = Returned v ->
     map (fun P => count P (trace o)) stage_functions =
     [1; 1; 1; 1; 1; 1; 1; 1; 1; Nat.b2n ib; Nat.b2n pf; 1;
      Nat.b2n (String.eqb g "sphere")]).
Proof.
  cbv zeta. by_paths. on_geometry g; on_flags pf ib; walk; settle.
Qed.

(** X4: Steps 3 and 4 pass the mesh on as the code says: the format
    converter reads [mesh-MESH.msh] and writes [mesh_triangles.nc] after the
    engine returned; that same file is opened after the converter returned;
    the data set converted is the one opened there, and the data set written
    to [base_mesh.nc] is the one the conversion returned. *)
Theorem mesh_handed_through_files w pf fe ib g pc :
  let tr := trace (run env (build_mesh pf fe ib g pc) w) in
  every_call (conversion_chain tr) tr /\
  preceded is_engine is_format_conversion tr = true /\
  preceded is_format_conversion is_open tr = true /\
  preceded is_topology_conversion is_mesh_write tr = true.
Proof.
  cbv zeta. by_paths. on_geometry g; on_flags pf ib; walk; settle.
Qed.

(** X5: Step 1 passes the generator's values on unchanged: the array is
    named [cellWidth] and built from the returned field, with dimensions
    [lat], [lon] and the returned latitudes and longitudes on the sphere
    (the generator returns longitudes first), [y], [x] and the returned
    axes on the plane; the array written is that array, and the figure is
    drawn from the same field. *)
Theorem density_array_from_generator w pf fe ib g pc :
  let tr := trace (run env (build_mesh pf fe ib g pc) w) in
  every_call (step1_data_flow (String.eqb g "sphere") tr) tr.
Proof.
  cbv zeta. by_paths. on_geometry g; on_flags pf ib; walk; settle.
Qed.

(** X6: on the sphere the engine is called with the generator's field,
    longitudes and latitudes, in this order, and with no keyword argument;
    it is called as soon as Step 2 is announced. *)
Theorem sphere_engine_arguments w pf fe ib pc :
  let tr := trace (run env (build_mesh pf fe ib "sphere" pc) w) in
  every_call (engine_takes_sphere_of tr) tr /\
  (finished (prints "Step 2. Generate mesh with JIGSAW") tr = true ->
   invoked is_engine tr = true).
Proof.
  cbv zeta. by_paths. on_flags pf ib; walk; settle.
Qed.

(** X7: the export is the call of line 183 on [base_mesh.nc] into
    [base_mesh_vtk]; it comes after the density injection and after each
    optional injection that the flags ask for, all of them having returned;
    the closing banner is printed only after the export returned, so a run
    in which the export raises does not return and prints no banner. *)
Theorem export_comes_last w pf fe ib g pc :
  let o := run env (build_mesh pf fe ib g pc) w in
  every_call export_is (trace o) /\
  preceded is_density_injection is_export (trace o) = true /\
  (ib = true -> preceded is_bathymetry_injection is_export (trace o) = true) /\
  (pf = true -> preceded is_floodplain_injection is_export (trace o) = true) /\
  preceded is_export (prints "**    The global mesh file is base_mesh.nc   **")
           (trace o) = true /\
  (failed_at is_export (trace o) = true ->
   (exists e, res o = Raised (Collaborator e)) /\
   reached "**    The global mesh file is base_mesh.nc   **" (trace o) = false).
Proof.
  cbv zeta. by_paths. on_geometry g; on_flags pf ib; walk; settle.
Qed.

Lemma outputs_checked w pf fe ib g pc :
  let o := run env (build_mesh pf fe ib g pc) w in
  bool_decide (written (trace o) `prefix_of` outputs ib pf g) &&
  match res o with
  | Returned _ => bool_decide (written (trace o) = outputs ib pf g)
  | Raised _ => true
  end = true.
Proof.
  cbv zeta. by_paths. unfold outputs.
  on_geometry g; on_flags pf ib; walk; reflexivity.
Qed.

(** X8: the names a run is told to write, in order, are an initial part
    of: the density file of the mode, the plot on the sphere,
    [mesh_triangles.nc], [base_mesh.nc] (written, then changed in place by
    each injection), and [base_mesh_vtk]; a run that returns has named them
    all, and no other. *)
Theorem files_named_in_order w pf fe ib g pc :
  let o := run env (build_mesh pf fe ib g pc) w in
  written (trace o) `prefix_of` outputs ib pf g /\
  (forall v, res o = Returned v -> written (trace o) = outputs ib pf g).
Proof.
  cbv zeta. pose proof (outputs_checked w pf fe ib g pc) as Hc. cbv zeta in Hc.
  apply andb_prop in Hc as [Hpre Hall]. split.
  - by apply bool_decide_eq_true in Hpre.
  - intros v Hv. rewrite Hv in Hall. by apply bool_decide_eq_true in Hall.
Qed.

(** X9: the mode is fixed for the run: every call that takes an
    [on_sphere] argument is given the value of the test of line 97. *)
Theorem mode_is_fixed w pf fe ib g pc :
  forallb (carries_mode (String.eqb g "sphere"))
          (calls (trace (run env (build_mesh pf fe ib g pc) w))) = true.
Proof.
  by_paths. on_geometry g; on_flags pf ib; walk; settle.
Qed.

(** ** Further properties of the module body *)

(** X11: between [sys.path.append(os.getcwd())] and [del sys.path[-1]]
    the module body imports [define_base_mesh] and nothing else: every other
    import is attempted before the append returned.  The delete is called
    only after that import returned; a module body that returns has made
    the append, the import and the delete; when the import raises, the
    delete is not called. *)
Theorem generator_is_the_import_after_append w :
  let o := run env module_body w in
  imports_after false is_path_append (trace o) `prefix_of` ["define_base_mesh"] /\
  preceded (imports "define_base_mesh") is_path_restore (trace o) = true /\
  (forall u, res o = Returned u ->
   imports_after false is_path_append (trace o) = ["define_base_mesh"] /\
   finished is_path_restore (trace o) = true) /\
  (failed_at (imports "define_base_mesh") (trace o) = true ->
   invoked is_path_restore (trace o) = false).
Proof.
  cbv zeta. by_paths. unfold module_body. walk; settle.
Qed.

(** X12: the plotting backend is chosen between the two imports of
    matplotlib: [matplotlib.use] is called once, with ['Agg'], after
    [matplotlib] was imported and before [matplotlib.pyplot] is. *)
Theorem backend_chosen_before_pyplot w :
  let tr := trace (run env module_body w) in
  preceded (imports "matplotlib") is_backend_choice tr = true /\
  preceded is_backend_choice (imports "matplotlib.pyplot") tr = true /\
  Nat.leb (count is_backend_choice tr) 1 = true /\
  forallb backend_is_agg (calls tr) = true.
Proof.
  cbv zeta. by_paths. unfold module_body. walk; settle.
Qed.

Lemma preceded_from_seen (P Q : call -> bool) tr :
  preceded_from true P Q tr = true.
Proof.
  induction tr as [|t tr IH]; [done|]. cbn. rewrite IH. by destruct (Q (call_of t)).
Qed.

Lemma preceded_from_app (P Q : call -> bool) seen tr1 tr2 :
  preceded_from seen P Q (tr1 ++ tr2) =
  preceded_from seen P Q tr1 && preceded_from (seen || finished P tr1) P Q tr2.
Proof.
  revert seen. induction tr1 as [|t tr1 IH]; intros seen; cbn.
  - by rewrite orb_false_r.
  - rewrite IH. unfold finished. cbn. by rewrite andb_assoc, orb_assoc.
Qed.

(** When the module body returns, its last statement, the delete of the
    last item of [sys.path], has returned. *)
Lemma module_body_restores w u :
  res (run env module_body w) = Returned u ->
  finished is_path_restore (trace (run env module_body w)) = true.
Proof.
  by_paths. unfold module_body. walk; settle.
Qed.

(** X13: whatever function of the module runs after the module is loaded,
    each of its calls that is not a module-level call, so the parsing of the
    command line and every stage of [build_mesh], comes after the delete
    that takes the working directory off [sys.path] has returned. *)
Theorem path_restored_before_the_rest {A} (p : prog A) w :
  preceded is_path_restore (fun c => negb (module_level c))
           (trace (run env (loaded_then p) w)) = true.
Proof.
  destruct (module_body_runs w) as (Hall & _).
  assert (forall tr seen,
             forallb (fun t => module_level (call_of t)) tr = true ->
             preceded_from seen is_path_restore
                           (fun c => negb (module_level c)) tr = true) as Hquiet.
  { induction tr as [|t tr IH]; intros seen; [done|]. cbn.
    intros [Ht Htr]%andb_prop. rewrite Ht. cbn. by apply IH. }
  unfold loaded_then, preceded. rewrite run_bind.
  destruct (res (run env module_body w)) as [u|x] eqn:E; cbn [trace].
  - rewrite preceded_from_app, (Hquiet _ _ Hall).
    rewrite (module_body_restores w u E). apply preceded_from_seen.
  - by apply Hquiet.
Qed.

(** X14: the plot of the sphere branch: the colour maps are registered,
    the figure is drawn, saved as [cellWidthGlobal.png] with
    [bbox_inches='tight'] and closed, in this order, each after the one
    before returned; all of it after the density file is written and before
    the engine is called. *)
Theorem plot_block_order w pf fe ib g pc :
  let tr := trace (run env (build_mesh pf fe ib g pc) w) in
  preceded is_persist is_colormap_registration tr = true /\
  preceded is_colormap_registration is_drawing tr = true /\
  preceded is_drawing is_figure_save tr = true /\
  preceded is_figure_save is_figure_close tr = true /\
  forallb figure_save_is (calls tr) = true /\
  (g = "sphere" -> preceded is_figure_close is_engine tr = true).
Proof.
  cbv zeta. by_paths. on_geometry g; on_flags pf ib; walk; settle.
Qed.

End Properties.

(** * The properties at work in the reference environment *)

Import Reference Runs.

Example sphere_run_calls :
  res sphere_run = Returned PyNone /\
  calls (trace sphere_run) !! 6 = Some (savefig "cellWidthGlobal.png" "tight") /\
  length (trace sphere_run) = 23 /\
  files (world sphere_run) !! "cellWidthGlobal.png" = Some Picture.
Proof. vm_compute. done. Qed.

(** The plot is saved in the sphere run although [plot_cellWidth] is false. *)
Lemma plot_iff_sphere_witness :
  finished (saves_figure "cellWidthGlobal.png") (trace sphere_run_no_plot) = true.
Proof.
  destruct (plot_iff_sphere env (fresh []) false 20 false "sphere" false true)
    as (_ & Hplot & _).
  apply Hplot; vm_compute; reflexivity.
Defined.

Example plane_run_has_no_plot :
  res plane_run = Returned PyNone /\
  invoked is_plot_call (trace plane_run) = false /\
  files (world plane_run) !! "cellWidthGlobal.png" = None.
Proof. vm_compute. done. Qed.

(** The density file of the sphere run is written before Step 2. *)
Lemma density_file_by_mode_witness :
  finished (persists "cellWidthVsLatLon.nc") (trace sphere_run) = true /\
  finished (injects_density "cellWidthVsLatLon.nc" "base_mesh.nc") (trace sphere_run) = true.
Proof.
  destruct (density_file_by_mode env (fresh []) false 20 false "sphere" true)
    as (_ & _ & _ & _ & _ & _ & Hwritten & Hinjected & _).
  split; [apply Hwritten|apply Hinjected]; vm_compute; reflexivity.
Defined.

Example density_file_read_back :
  files (world sphere_run) !! "cellWidthVsLatLon.nc" =
    Some (ArrayFile {| da_values := small_field; da_dims := ["lat"; "lon"];
                       da_coords := [("lat", [-90; 90]); ("lon", [-180; 0; 180])]%float;
                       da_name := "cellWidth" |}) /\
  (files (world sphere_run) !! "base_mesh.nc" ≫=
     fun f => match f with MeshFile m => meshDensity m | _ => None end) =
    Some {| da_values := small_field; da_dims := ["lat"; "lon"];
            da_coords := [("lat", [-90; 90]); ("lon", [-180; 0; 180])]%float;
            da_name := "cellWidth" |} /\
  files (world plane_run) !! "cellWidthVsLatLon.nc" = None /\
  is_file "cellWidthVsXY.nc" (world plane_run) = true.
Proof. vm_compute. done. Qed.

(** Both optional stages run in the planar run, with threshold 10. *)
Lemma optional_stages_witness :
  invoked is_bathymetry_injection (trace plane_run) = true /\
  invoked is_floodplain_injection (trace plane_run) = true /\
  In (inject_preserve_floodplain "base_mesh.nc" 10) (calls (trace plane_run)).
Proof.
  destruct (optional_stages env (with_topo []) true 10 true "plane" true)
    as (_ & _ & _ & _ & _ & _ & Hboth).
  destruct (Hboth PyNone) as (Hbathymetry & Hfloodplain & Hthreshold);
    [vm_compute; reflexivity|].
  split; [exact Hbathymetry|]. split; [exact Hfloodplain|].
  apply Hthreshold. reflexivity.
Defined.

Example optional_stages_skipped :
  invoked is_bathymetry_injection (trace sphere_run) = false /\
  invoked is_floodplain_injection (trace sphere_run) = false /\
  (files (world plane_run) !! "base_mesh.nc" ≫=
     fun f => match f with MeshFile m => cellSeedMask m | _ => None end) = Some 10%float.
Proof. vm_compute. done. Qed.

(** C3 as stated fails: the sphere run succeeds and returns [None], not
    the location [base_mesh.nc] of the mesh it has written. *)
Lemma build_mesh_returns_no_location :
  res sphere_run = Returned PyNone /\
  res sphere_run <> Returned (PyStr "base_mesh.nc") /\
  is_file "base_mesh.nc" (world sphere_run) = true.
Proof. vm_compute. done. Qed.

Lemma returns_none_witness :
  res sphere_run = Returned PyNone /\
  finished (writes_mesh "base_mesh.nc") (trace sphere_run) = true.
Proof.
  destruct (returns_none env (fresh []) false 20 false "sphere" true PyNone)
    as (_ & Hmesh & _); [vm_compute; reflexivity|].
  split; [vm_compute; reflexivity|exact Hmesh].
Defined.

(** C8 as stated fails: with a polygon that has no edges nothing is
    detected before mesh generation.  The density file is written, Step 2
    is announced and the engine is called with the empty edge list; the
    exception that ends the run is the engine's. *)
Lemma edgeless_polygon_reaches_engine :
  last (trace edgeless_run) =
    Some (Failed (jigsaw_driver small_field [0; 1000; 2000]%float [0; 1000]%float
                    (Some false)
                    (Some [(0, 0); (2000, 0); (2000, 1000); (0, 1000)]%float)
                    (Some []))
                 (ValueError "no boundary edges")) /\
  finished (persists "cellWidthVsXY.nc") (trace edgeless_run) = true /\
  finished (prints "Step 2. Generate mesh with JIGSAW") (trace edgeless_run) = true /\
  is_file "cellWidthVsXY.nc" (world edgeless_run) = true.
Proof. vm_compute. done. Qed.

Lemma polygon_handed_to_engine_witness :
  every_call (engine_takes_polygon_of (trace edgeless_run)) (trace edgeless_run) /\
  invoked is_engine (trace edgeless_run) = true /\
  In (jigsaw_driver small_field [0; 1000; 2000]%float [0; 1000]%float (Some false)
        (Some [(0, 0); (2000, 0); (2000, 1000); (0, 1000)]%float) (Some []))
     (calls (trace edgeless_run)).
Proof.
  destruct (polygon_handed_to_engine env (edgeless []) false 20 false "plane" true)
    as (Hsame & Hcalled & _); [discriminate|].
  destruct Hcalled as (Hengine & Hpolygon); [vm_compute; reflexivity..|].
  split; [exact Hsame|]. split; [exact Hengine|].
  apply Hpolygon. vm_compute. by left.
Defined.

(** C2 as stated fails: [--geometry cube] is parsed, the planar pipeline
    runs to its end, the engine is called and the mesh is written. *)
Lemma cube_geometry_runs_planar_pipeline :
  res cube_run = Returned PyNone /\
  finished is_parse_args (trace cube_run) = true /\
  finished is_engine (trace cube_run) = true /\
  finished (persists "cellWidthVsXY.nc") (trace cube_run) = true /\
  is_file "base_mesh.nc" (world cube_run) = true.
Proof. vm_compute. done. Qed.

Lemma other_geometry_is_plane_witness :
  run env (build_mesh false 20 false "cube" true) (fresh []) =
  run env (build_mesh false 20 false "plane" true) (fresh []).
Proof.
  destruct (other_geometry_is_plane env (fresh []) false 20 false "cube" true)
    as (Hsame & _); [discriminate|exact Hsame].
Defined.


Example bathymetry_scenario :
  res bathymetry_run = Raised (Collaborator (FileNotFoundError "earth_relief_15s.nc")) /\
  last (calls (trace bathymetry_run)) = Some (inject_bathymetry "base_mesh.nc") /\
  (files (world bathymetry_run) !! "base_mesh.nc" ≫=
     fun f => match f with
              | MeshFile m => Some (meshDensity m, bottomDepthObserved m)
              | _ => None
              end) =
    Some (Some {| da_values := small_field; da_dims := ["lat"; "lon"];
                  da_coords := [("lat", [-90; 90]); ("lon", [-180; 0; 180])]%float;
                  da_name := "cellWidth" |}, false) /\
  is_file "base_mesh_vtk" (world bathymetry_run) = false.
Proof. vm_compute. done. Qed.

(** Without [define_base_mesh.py] the run of the command ends in the
    module body. *)
Lemma generator_imported_at_load_witness :
  res missing_module_run = Raised (Collaborator (ModuleNotFoundError "define_base_mesh")) /\
  invoked is_parse_args (trace missing_module_run) = false /\
  invoked has_target (trace missing_module_run) = false.
Proof.
  destruct (generator_imported_at_load env main
              (no_generator ["--geometry"; "plane"]) false 20 false "plane" true)
    as (_ & _ & _ & Hstop).
  destruct Hstop as (_ & _ & Hparse & _ & Hwrite); [vm_compute; reflexivity|].
  split; [vm_compute; reflexivity|]. by split.
Defined.

Example missing_module_scenario :
  last (trace missing_module_run) =
    Some (Failed (import_ "define_base_mesh") (ModuleNotFoundError "define_base_mesh")) /\
  files (world missing_module_run) = ∅ /\
  stdout (world missing_module_run) = [].
Proof. vm_compute. done. Qed.

(** * The further properties at work *)

Lemma steps_in_order_witness :
  announcements (trace plane_run) =
  ["Step 1. Build cellWidth array as function of horizontal coordinates";
   "Step 2. Generate mesh with JIGSAW";
   "Step 3. Convert triangles from jigsaw format to netcdf";
   "Step 4. Convert from triangles to MPAS mesh";
   "Step 5. Inject correct meshDensity variable into base mesh file";
   "Step 6. Injecting bathymetry";
   "Step 7. Injecting flag to preserve floodplain";
   "Step 8. Create vtk file for visualization";
   "***********************************************";
   "**    The global mesh file is base_mesh.nc   **";
   "***********************************************"].
Proof.
  destruct (steps_in_order env (with_topo []) true 10 true "plane" true)
    as (_ & Hall).
  apply (Hall PyNone). vm_compute. reflexivity.
Defined.

Example steps_of_a_failed_run :
  announcements (trace bathymetry_run) =
  ["Step 1. Build cellWidth array as function of horizontal coordinates";
   "Step 2. Generate mesh with JIGSAW";
   "Step 3. Convert triangles from jigsaw format to netcdf";
   "Step 4. Convert from triangles to MPAS mesh";
   "Step 5. Inject correct meshDensity variable into base mesh file";
   "Step 6. Injecting bathymetry"] /\
  stdout (world bathymetry_run) = announcements (trace bathymetry_run).
Proof. vm_compute. done. Qed.

Lemma no_stage_repeated_witness :
  map (fun P => count P (trace plane_run)) stage_functions =
  [1; 1; 1; 1; 1; 1; 1; 1; 1; 1; 1; 1; 0].
Proof.
  destruct (no_stage_repeated env (with_topo []) true 10 true "plane" true)
    as (_ & Hall).
  apply (Hall PyNone). vm_compute. reflexivity.
Defined.

Lemma sphere_engine_arguments_witness :
  invoked is_engine (trace sphere_run) = true.
Proof.
  destruct (sphere_engine_arguments env (fresh []) false 20 false true)
    as (_ & Hcalled).
  apply Hcalled. vm_compute. reflexivity.
Defined.

(** The export raises: the run raises too, and the banner is not printed,
    although the mesh is written with its density. *)
Lemma export_comes_last_witness :
  (exists e, res export_failure_run = Raised (Collaborator e)) /\
  reached "**    The global mesh file is base_mesh.nc   **"
          (trace export_failure_run) = false.
Proof.
  destruct (export_comes_last env_without_export (fresh []) false 20 false "sphere" true)
    as (_ & _ & _ & _ & _ & Hfailed).
  apply Hfailed. vm_compute. reflexivity.
Defined.

Example export_failure_scenario :
  res export_failure_run = Raised (Collaborator (ValueError "base_mesh_vtk")) /\
  is_file "base_mesh.nc" (world export_failure_run) = true /\
  is_file "base_mesh_vtk" (world export_failure_run) = false.
Proof. vm_compute. done. Qed.

Lemma files_named_in_order_witness :
  written (trace plane_run) =
  ["cellWidthVsXY.nc"; "mesh_triangles.nc"; "base_mesh.nc"; "base_mesh.nc";
   "base_mesh.nc"; "base_mesh.nc"; "base_mesh_vtk"].
Proof.
  destruct (files_named_in_order env (with_topo []) true 10 true "plane" true)
    as (_ & Hall).
  apply (Hall PyNone). vm_compute. reflexivity.
Defined.

(** The module body imports the generator alone after the append; when
    that import fails for want of the module, nothing is deleted. *)
Lemma generator_is_the_import_after_append_witness :
  imports_after false is_path_append (trace load_run) = ["define_base_mesh"] /\
  invoked is_path_restore (trace failed_load_run) = false.
Proof.
  split.
  - destruct (generator_is_the_import_after_append env (fresh []))
      as (_ & _ & Hdone & _).
    apply (Hdone tt). vm_compute. reflexivity.
  - destruct (generator_is_the_import_after_append env (no_generator []))
      as (_ & _ & _ & Hleft).
    apply Hleft. vm_compute. reflexivity.
Defined.

Example sys_path_after_load :
  sys_path (world load_run) = ["/usr/bin"] /\
  sys_path (world failed_load_run) = ["/usr/bin"; "/work"].
Proof. vm_compute. done. Qed.

Lemma plot_block_order_witness :
  preceded is_figure_close is_engine (trace sphere_run) = true /\
  finished is_figure_close (trace sphere_run) = true.
Proof.
  destruct (plot_block_order env (fresh []) false 20 false "sphere" true)
    as (_ & _ & _ & _ & _ & Hclosed).
  split; [by apply Hclosed|vm_compute; reflexivity].
Defined.

Example command_line_run_after_load :
  res cube_run = Returned PyNone /\
  preceded is_path_restore is_parse_args (trace cube_run) = true /\
  sys_path (world cube_run) = ["/usr/bin"].
Proof. vm_compute. done. Qed.
